(** * The image-classification notebook: scoring client, classifier
      selection and deployment cell

    A shallow embedding of the executable glue code of
    [domain-packages/computer-vision/classification.ipynb] (Python 3.5
    kernel): the function [score_image_with_http], the classifier-selection
    cell and the deployment cell, and the cells that describe the dataset,
    plot the training curves, label the predictions, prepare the
    precision/recall viewer and time the scoring calls.

    The notebook calls into libraries that are not part of the repository
    ([json], [requests], the file system, the CVTK deployment object).  Those
    collaborators are section variables here, so every theorem holds for
    whatever they do; [base64.b64encode] and the text form of a [bytes]
    object, on which the request format depends, are written out. *)

From Stdlib Require Import ZArith NArith Ascii String List Lia.
From Stdlib.Strings Require Import Byte.
From stdpp Require Import base gmap strings list pretty.

Set Warnings "-register-all".

Local Open Scope string_scope.
Local Open Scope list_scope.

(** ** Python values and exceptions *)

Module Py.

(** The values that flow through the notebook code: what [json.loads]
    can return and what a caller can pass as [parameters].  A [dict] is
    kept as its list of items (string keys, as JSON has them); a float is
    its IEEE-754 binary64 bit pattern; [PObj] is an object of a library
    class (a trained model, say), known only by its class name. *)
Inductive pyval : Type :=
| PNone
| PBool (b : bool)
| PInt (n : Z)
| PFloat (bits : Z)
| PStr (s : string)
| PBytes (b : list byte)
| PList (l : list pyval)
| PDict (items : list (string * pyval))
| PObj (cls : string).

(** Exceptions.  The two the notebook raises itself carry their message;
    [NameError] carries the unbound name, [OSError] the path that could
    not be opened; [LibraryError] stands for whatever an external library
    raises ([json], [requests], the training framework). *)
Inductive exn : Type :=
| Exception (msg : string)
| ValueError (msg : string)
| NameError (name : string)
| TypeError
| IndexError
| KeyError
| OSError (path : string)
| LibraryError (what : string).

Inductive result (A : Type) : Type :=
| Ok (a : A)
| Raised (e : exn).
Arguments Ok {A} a.
Arguments Raised {A} e.

Definition is_ok {A} (r : result A) : bool :=
  match r with Ok _ => true | Raised _ => false end.

(** Sequencing: an exception ends the computation. *)
#[export] Instance result_ret : MRet result := fun A a => Ok a.

#[export] Instance result_bind : MBind result := fun A B k r =>
  match r with
  | Ok a => k a
  | Raised e => Raised e
  end.

(** [s.lower()] on the ASCII range. *)
Definition ascii_lower (c : ascii) : ascii :=
  let n := N_of_ascii c in
  if (65 <=? n)%N && (n <=? 90)%N then ascii_of_N (n + 32) else c.

Fixpoint str_lower (s : string) : string :=
  match s with
  | EmptyString => EmptyString
  | String c s' => String (ascii_lower c) (str_lower s')
  end.

(** ["literal" + v]: concatenation to a [str] accepts only a [str]. *)
Definition str_add (s : string) (v : pyval) : result string :=
  match v with
  | PStr t => Ok (s +:+ t)
  | _ => Raised TypeError
  end.

(** [v[0]].  A dict with string keys has no key [0]; numbers, [None] and
    opaque objects are not subscriptable. *)
Definition getitem0 (v : pyval) : result pyval :=
  match v with
  | PList (x :: _) => Ok x
  | PList [] => Raised IndexError
  | PStr (String c _) => Ok (PStr (String c EmptyString))
  | PStr EmptyString => Raised IndexError
  | PBytes (b :: _) => Ok (PInt (Z.of_N (Byte.to_N b)))
  | PBytes [] => Raised IndexError
  | PDict _ => Raised KeyError
  | PNone | PBool _ | PInt _ | PFloat _ | PObj _ => Raised TypeError
  end.

(** The keys of a dict, in item order. *)
Definition dict_keys (v : pyval) : option (list string) :=
  match v with
  | PDict items => Some (map fst items)
  | _ => None
  end.

Definition dict_get (k : string) (v : pyval) : option pyval :=
  match v with
  | PDict items => snd <$> find (fun kv => String.eqb (fst kv) k) items
  | _ => None
  end.

(** *** The text form of a [bytes] object

    [str(b)] of a [bytes] object is its [repr]: the letter b, a quote, the
    escaped content, the quote.  The quote is the single quote unless the
    content has a single quote and no double quote. *)
Definition squote : ascii := "039"%char.
Definition dquote : ascii := "034"%char.
Definition backslash : ascii := "092"%char.

Definition hexdigit (n : N) : ascii :=
  if (n <? 10)%N then ascii_of_N (48 + n) else ascii_of_N (87 + n).

Definition repr_byte (quote : ascii) (b : byte) : string :=
  let c := ascii_of_byte b in
  let n := Byte.to_N b in
  if Ascii.eqb c quote || Ascii.eqb c backslash
  then String backslash (String c EmptyString)
  else if (n =? 9)%N then String backslash "t"
  else if (n =? 10)%N then String backslash "n"
  else if (n =? 13)%N then String backslash "r"
  else if (n <? 32)%N || (127 <=? n)%N
  then String backslash
         (String "x" (String (hexdigit (N.shiftr n 4))
                        (String (hexdigit (N.land n 15)) EmptyString)))
  else String c EmptyString.

Definition has_byte (c : ascii) (bs : list byte) : bool :=
  existsb (fun b => Ascii.eqb (ascii_of_byte b) c) bs.

Definition repr_quote (bs : list byte) : ascii :=
  if has_byte squote bs && negb (has_byte dquote bs) then dquote else squote.

Fixpoint repr_body (quote : ascii) (bs : list byte) : string :=
  match bs with
  | [] => EmptyString
  | b :: bs' => repr_byte quote b +:+ repr_body quote bs'
  end.

Definition bytes_repr (bs : list byte) : string :=
  let q := repr_quote bs in
  String "b" (String q (repr_body q bs +:+ String q EmptyString)).

(** A byte that [repr] with single quotes prints as itself. *)
Definition plain (b : byte) : bool :=
  let c := ascii_of_byte b in
  let n := Byte.to_N b in
  negb (Ascii.eqb c squote) && negb (Ascii.eqb c backslash) &&
  (32 <=? n)%N && (n <? 127)%N.

(** ["{0}".format(b)] for a [bytes] argument: [format(b, "")], which is
    [str(b)], which is [repr(b)]. *)
Definition format0_bytes (bs : list byte) : string := bytes_repr bs.

(** The content of a [bytes] object read as text, byte for byte. *)
Definition decode_ascii (bs : list byte) : string :=
  string_of_list_ascii (map ascii_of_byte bs).

End Py.

(** ** [base64.b64encode] *)

Module Base64.

Definition alphabet : list ascii :=
  list_ascii_of_string
    "ABCDEFGHIJKLMNOPQRSTUVWXYZabcdefghijklmnopqrstuvwxyz0123456789+/".

Definition pad : byte := byte_of_ascii "="%char.

(** The character of the six bits of [n] that start at bit [shift]. *)
Definition sextet (n : N) (shift : N) : byte :=
  byte_of_ascii
    (nth (N.to_nat (N.land (N.shiftr n shift) 63)) alphabet "A"%char).

Definition group3 (a b c : byte) : N :=
  N.lor (N.shiftl (Byte.to_N a) 16)
        (N.lor (N.shiftl (Byte.to_N b) 8) (Byte.to_N c)).

Fixpoint b64encode (data : list byte) : list byte :=
  match data with
  | [] => []
  | [a] =>
      let n := group3 a "000"%byte "000"%byte in
      [sextet n 18; sextet n 12; pad; pad]
  | [a; b] =>
      let n := group3 a b "000"%byte in
      [sextet n 18; sextet n 12; sextet n 6; pad]
  | a :: b :: c :: rest =>
      let n := group3 a b c in
      sextet n 18 :: sextet n 12 :: sextet n 6 :: sextet n 0 :: b64encode rest
  end.

End Base64.

(** ** A JSON codec for concrete runs

    [json] is an external library and the notebook code is verified for any
    behaviour of it.  To run the code on concrete requests and responses,
    this module gives a decoder and an encoder for the fragment of JSON
    without fractions, exponents and [\u] escapes, with the layout
    [json.dumps] uses by default. *)

Module Json.
Import Py.

Definition decode_error {A} : result A :=
  Raised (LibraryError "JSONDecodeError").

Definition is_ws (c : ascii) : bool :=
  match N_of_ascii c with
  | 32%N | 9%N | 10%N | 13%N => true
  | _ => false
  end.

Fixpoint skip_ws (s : string) : string :=
  match s with
  | String c r => if is_ws c then skip_ws r else s
  | EmptyString => s
  end.

Definition is_digit (c : ascii) : bool :=
  let n := N_of_ascii c in (48 <=? n)%N && (n <=? 57)%N.

Definition digit_value (c : ascii) : Z := Z.of_N (N_of_ascii c) - 48.

Fixpoint scan_digits (acc : Z) (s : string) : Z * string :=
  match s with
  | String c r =>
      if is_digit c then scan_digits (10 * acc + digit_value c) r else (acc, s)
  | EmptyString => (acc, s)
  end.

(** A number without leading zeros; a fraction or exponent after it is
    outside the fragment. *)
Definition scan_nat (s : string) : option (Z * string) :=
  match s with
  | String c r =>
      if Ascii.eqb c "0" then Some (0%Z, r)
      else if is_digit c then Some (scan_digits 0 s)
      else None
  | EmptyString => None
  end.

Definition starts_fraction (s : string) : bool :=
  match s with
  | String c _ => Ascii.eqb c "." || Ascii.eqb c "e" || Ascii.eqb c "E"
  | EmptyString => false
  end.

Definition scan_int (s : string) : option (Z * string) :=
  '(n, r) ← match s with
            | String "-" r => '(n, r') ← scan_nat r; Some ((- n)%Z, r')
            | _ => scan_nat s
            end;
  if starts_fraction r then None else Some (n, r).

Definition unescape (c : ascii) : option ascii :=
  if Ascii.eqb c dquote then Some dquote
  else if Ascii.eqb c backslash then Some backslash
  else if Ascii.eqb c "/" then Some "/"%char
  else if Ascii.eqb c "b" then Some "008"%char
  else if Ascii.eqb c "f" then Some "012"%char
  else if Ascii.eqb c "n" then Some "010"%char
  else if Ascii.eqb c "r" then Some "013"%char
  else if Ascii.eqb c "t" then Some "009"%char
  else None.

(** The content of a string literal, from after its opening quote. *)
Fixpoint scan_string (s : string) : option (string * string) :=
  match s with
  | EmptyString => None
  | String c r =>
      if Ascii.eqb c dquote then Some (EmptyString, r)
      else if Ascii.eqb c backslash then
        match r with
        | String e r' =>
            ch ← unescape e;
            '(t, r'') ← scan_string r';
            Some (String ch t, r'')
        | EmptyString => None
        end
      else if (N_of_ascii c <? 32)%N then None
      else '(t, r') ← scan_string r; Some (String c t, r')
  end.

Fixpoint strip_prefix (p s : string) : option string :=
  match p, s with
  | EmptyString, _ => Some s
  | String a p', String b s' => if Ascii.eqb a b then strip_prefix p' s' else None
  | String _ _, EmptyString => None
  end.

Section Containers.
Variable value : string -> option (pyval * string).

(** The elements of an array, from after its opening bracket. *)
Fixpoint parse_elements (fuel : nat) (s : string)
  : option (list pyval * string) :=
  match fuel with
  | O => None
  | S fuel' =>
      '(v, r) ← value s;
      match skip_ws r with
      | String "," r' =>
          '(vs, r'') ← parse_elements fuel' r'; Some (v :: vs, r'')
      | String "]" r' => Some ([v], r')
      | _ => None
      end
  end.

(** The members of an object, from after its opening brace.  Of two
    members with one key the later one stays. *)
Fixpoint parse_members (fuel : nat) (s : string)
  : option (list (string * pyval) * string) :=
  match fuel with
  | O => None
  | S fuel' =>
      match skip_ws s with
      | String c r =>
          if Ascii.eqb c dquote then
            '(k, r1) ← scan_string r;
            match skip_ws r1 with
            | String ":" r2 =>
                '(v, r3) ← value r2;
                match skip_ws r3 with
                | String "," r4 =>
                    '(kvs, r5) ← parse_members fuel' r4;
                    if existsb (String.eqb k) (map fst kvs)
                    then Some (kvs, r5)
                    else Some ((k, v) :: kvs, r5)
                | String "}" r4 => Some ([(k, v)], r4)
                | _ => None
                end
            | _ => None
            end
          else None
      | EmptyString => None
      end
  end.
End Containers.

Fixpoint parse_value (fuel : nat) (s : string) : option (pyval * string) :=
  match fuel with
  | O => None
  | S fuel' =>
      match skip_ws s with
      | EmptyString => None
      | String c r as s' =>
          if Ascii.eqb c dquote then
            '(t, r') ← scan_string r; Some (PStr t, r')
          else if Ascii.eqb c "[" then
            match skip_ws r with
            | String "]" r' => Some (PList [], r')
            | _ =>
                '(vs, r') ← parse_elements (parse_value fuel') (String.length r) r;
                Some (PList vs, r')
            end
          else if Ascii.eqb c "{" then
            match skip_ws r with
            | String "}" r' => Some (PDict [], r')
            | _ =>
                '(kvs, r') ← parse_members (parse_value fuel') (String.length r) r;
                Some (PDict kvs, r')
            end
          else
            match strip_prefix "null" s', strip_prefix "true" s',
                  strip_prefix "false" s' with
            | Some r', _, _ => Some (PNone, r')
            | _, Some r', _ => Some (PBool true, r')
            | _, _, Some r' => Some (PBool false, r')
            | None, None, None => '(n, r') ← scan_int s'; Some (PInt n, r')
            end
      end
  end.

Definition loads (s : string) : result pyval :=
  match parse_value (S (String.length s)) s with
  | Some (v, r) =>
      match skip_ws r with
      | EmptyString => Ok v
      | String _ _ => decode_error
      end
  | None => decode_error
  end.

(** Encoding. *)
Definition escape_char (c : ascii) : string :=
  let n := N_of_ascii c in
  if Ascii.eqb c dquote then String backslash (String dquote EmptyString)
  else if Ascii.eqb c backslash then String backslash (String backslash EmptyString)
  else if (n =? 10)%N then String backslash "n"
  else if (n =? 13)%N then String backslash "r"
  else if (n =? 9)%N then String backslash "t"
  else if (n =? 8)%N then String backslash "b"
  else if (n =? 12)%N then String backslash "f"
  else if (n <? 32)%N || (126 <? n)%N then
    String backslash
      ("u00" +:+ String (hexdigit (N.shiftr n 4))
                   (String (hexdigit (N.land n 15)) EmptyString))
  else String c EmptyString.

Fixpoint escape (s : string) : string :=
  match s with
  | EmptyString => EmptyString
  | String c r => escape_char c +:+ escape r
  end.

Definition quoted (s : string) : string :=
  String dquote (escape s +:+ String dquote EmptyString).

Fixpoint join (sep : string) (l : list string) : string :=
  match l with
  | [] => EmptyString
  | [x] => x
  | x :: l' => x +:+ sep +:+ join sep l'
  end.

Fixpoint dumps (v : pyval) : result string :=
  match v with
  | PNone => Ok "null"
  | PBool true => Ok "true"
  | PBool false => Ok "false"
  | PInt n => Ok (pretty n)
  | PFloat _ => Raised (LibraryError "float")
  | PStr s => Ok (quoted s)
  | PBytes _ | PObj _ => Raised TypeError
  | PList l =>
      parts ← (fix go (l : list pyval) : result (list string) :=
                 match l with
                 | [] => Ok []
                 | x :: l' => sx ← dumps x; ss ← go l'; Ok (sx :: ss)
                 end) l;
      Ok ("[" +:+ join ", " parts +:+ "]")
  | PDict items =>
      parts ← (fix go (l : list (string * pyval)) : result (list string) :=
                 match l with
                 | [] => Ok []
                 | (k, x) :: l' =>
                     sx ← dumps x; ss ← go l';
                     Ok ((quoted k +:+ ": " +:+ sx) :: ss)
                 end) items;
      Ok ("{" +:+ join ", " parts +:+ "}")
  end.

End Json.

(** ** The notebook *)

Module Notebook.
Import Py.

(** *** Effects

    What the code does to the outside world is recorded as a trace: the
    files it opens and the HTTP requests it sends.  A computation is its
    trace together with its outcome, a value or a raised exception. *)
Inductive event : Type :=
| OpenRead (path : string)
| HttpPost (url : string) (body : string) (headers : gmap string string).

Definition io (A : Type) : Type := (list event * result A)%type.

Definition trace {A} (m : io A) : list event := fst m.
Definition outcome {A} (m : io A) : result A := snd m.

#[export] Instance io_ret : MRet io := fun A a => ([], Ok a).

#[export] Instance io_bind : MBind io := fun A B k m =>
  match m with
  | (t, Ok a) => let '(t', r) := k a in (t ++ t', r)
  | (t, Raised e) => (t, Raised e)
  end.

Definition raise {A} (e : exn) : io A := ([], Raised e).

(** A computation without effects. *)
Definition pure {A} (r : result A) : io A := ([], r).

Definition emit (e : event) : io unit := ([e], Ok tt).

(** [try: body / except: handler], the bare [except] that catches every
    exception. *)
Definition try_except {A} (body : io A) (handler : io A) : io A :=
  match body with
  | (t, Ok a) => (t, Ok a)
  | (t, Raised _) => let '(t', r) := handler in (t ++ t', r)
  end.

Definition is_post (e : event) : bool :=
  match e with HttpPost _ _ _ => true | OpenRead _ => false end.

(** The HTTP requests of a trace, in order. *)
Definition posts (t : list event) : list event := List.filter is_post t.

(** *** The header dictionary of [score_image_with_http] *)
Definition build_headers (service_key : option string) : gmap string string :=
  match service_key with
  | None => {[ "Content-Type" := "application/json" ]}
  | Some key =>
      <[ "Authorization" := "Bearer " +:+ key ]>
        {[ "Content-Type" := "application/json" ]}
  end.

(** *** The request payload: [payload = []], then
    [payload.append(image_request)]. *)
Definition image_request (encoded : list byte) (parameters : pyval) : pyval :=
  PDict [ ("image_in_base64", PStr (format0_bytes encoded));
          ("parameters", parameters) ].

Definition build_payload (image_buffer : list byte) (parameters : pyval)
  : list pyval :=
  let payload := [] in
  let encoded := Base64.b64encode image_buffer in
  payload ++ [image_request encoded parameters].

Definition parse_error_message (text : string) : string :=
  "Incorrect output format. Result cant not be parsed: " +:+ text.

Section Scoring.

(** The files [open(path, 'rb')] can read, with their content. *)
Variable fs : gmap string (list byte).
(** [json.dumps], and [json.loads] on a [str]. *)
Variable json_dumps : pyval -> result string.
Variable json_loads : string -> result pyval.
(** [requests.post(url, data=body, headers=headers).text], or the
    exception [requests] raises. *)
Variable service :
  string -> string -> gmap string string -> result string.

(** [with open(image, 'rb') as f: f.read()] *)
Definition open_read (path : string) : io (list byte) :=
  _ ← emit (OpenRead path);
  match fs !! path with
  | Some content => mret content
  | None => raise (OSError path)
  end.

Definition requests_post (url body : string)
    (headers : gmap string string) : io string :=
  _ ← emit (HttpPost url body headers);
  pure (service url body headers).

(** [json.loads(v)] on a value: only a [str] is accepted. *)
Definition json_loads_value (v : pyval) : result pyval :=
  match v with
  | PStr s => json_loads s
  | _ => Raised TypeError
  end.

(** The body of the [try] block; [result] is the name it binds. *)
Definition parse_response (text : string) : io pyval :=
  result ← pure (json_loads text);
  first ← pure (getitem0 result);
  _ ← pure (json_loads_value first);
  mret result.

(** The [try] block and the [return] after it as one case analysis:
    what comes out once the service has answered [text]. *)
Definition answer (text : string) : result pyval :=
  match json_loads text with
  | Ok v =>
      match getitem0 v with
      | Ok first =>
          match json_loads_value first with
          | Ok _ => Ok first
          | Raised _ => Raised (ValueError (parse_error_message text))
          end
      | Raised _ => Raised (ValueError (parse_error_message text))
      end
  | Raised _ => Raised (ValueError (parse_error_message text))
  end.

Definition score_image_with_http (image service_endpoint_url : string)
    (service_key : option string) (parameters : pyval) : io pyval :=
  let headers := build_headers service_key in
  image_buffer ← open_read image;
  let payload := build_payload image_buffer parameters in
  body ← pure (json_dumps (PList payload));
  r_text ← requests_post service_endpoint_url body headers;
  result ← try_except (parse_response r_text)
             (raise (ValueError (parse_error_message r_text)));
  pure (getitem0 result).

End Scoring.

(** *** The classifier-selection cell

    The cell reads and writes the notebook's global names, kept as a map
    from name to value.  [train] is [dnn_model.train(train_set, lr_per_mb =
    lr_per_mb, mb_size = mb_size, eval_dataset = test_set)]. *)
Definition lookup_name (name : string) (globals : gmap string pyval)
  : result pyval :=
  match globals !! name with
  | Some v => Ok v
  | None => Raised (NameError name)
  end.

Section Training.

Variable train : pyval -> pyval -> pyval -> pyval -> pyval -> result unit.

Definition classifier_cell (classifier_name : string)
    (globals : gmap string pyval) : result (gmap string pyval) :=
  let globals := <[ "classifier_name" := PStr classifier_name ]> globals in
  if String.eqb (str_lower classifier_name) "dnn" then
    dnn_model ← lookup_name "dnn_model" globals;
    train_set ← lookup_name "train_set" globals;
    lr_per_mb ← lookup_name "lr_per_mb" globals;
    mb_size ← lookup_name "mb_size" globals;
    test_set ← lookup_name "test_set" globals;
    _ ← train dnn_model train_set lr_per_mb mb_size test_set;
    dnn_model' ← lookup_name "dnn_model" globals;
    Ok (<[ "classifier" := dnn_model' ]> globals)
  else
    classifier ← lookup_name "classifier" globals;
    msg ← str_add "Classifier unknown: " classifier;
    Raised (Exception msg).

End Training.

(** *** The deployment cell

    The cloud account is a state of type [cloud]; the three methods of the
    deployment object act on it.  Each call is recorded with the state it
    was issued in. *)
Inductive call : Type :=
| IsExistingService (name : string)
| DeleteIfServiceExist (name : string)
| Deploy (name : string).

Section Deployment.

Variable cloud : Type.
Variable is_existing_service : string -> cloud -> bool.
Variable delete_if_service_exist : string -> cloud -> result cloud.
Variable deploy : string -> cloud -> result cloud.

(** The outcome of the cell: the calls made, each with the state it saw,
    and the final state or the exception that ended the cell. *)
Definition deployment_cell (deployment_name : string) (c : cloud)
  : list (call * cloud) * result cloud :=
  let log0 := [(IsExistingService deployment_name, c)] in
  let '(log1, r1) :=
    if is_existing_service deployment_name c
    then (log0 ++ [(DeleteIfServiceExist deployment_name, c)],
          delete_if_service_exist deployment_name c)
    else (log0, Ok c) in
  match r1 with
  | Ok c1 => (log1 ++ [(Deploy deployment_name, c1)],
              deploy deployment_name c1)
  | Raised e => (log1, Raised e)
  end.

End Deployment.

End Notebook.

(** ** A concrete world

    One file system, the codec of [Json], a scoring service with a
    well-formed and a malformed endpoint, and a cloud account kept as the
    set of deployed service names. *)

Module Sample.
Import Py Notebook.

Definition dq : string := String dquote EmptyString.

(** The first bytes of a JPEG file. *)
Definition cup_jpg : list byte := [xff; xd8; xff; xe0; x00; x10].

Definition files : gmap string (list byte) := {[ "cup.jpg" := cup_jpg ]}.

Definition score_url : string := "http://localhost:32773/score".
Definition broken_url : string := "http://localhost:32773/broken".

(** The scores of one image, serialised, and the response that carries
    them: a list with that string as its element. *)
Definition scores : string := "[[3, 1, 0, 0]]".
Definition good_response : string := "[" +:+ dq +:+ scores +:+ dq +:+ "]".
Definition bad_response : string := "<html>Internal Server Error</html>".

Definition service (url body : string) (headers : gmap string string)
  : result string :=
  if String.eqb url score_url then Ok good_response
  else if String.eqb url broken_url then Ok bad_response
  else Raised (LibraryError "ConnectionError").

Definition score (image url : string) (key : option string)
    (parameters : pyval) : io pyval :=
  score_image_with_http files Json.dumps Json.loads service
    image url key parameters.

Definition cup_body : string :=
  "[{" +:+ dq +:+ "image_in_base64" +:+ dq +:+ ": " +:+ dq +:+ "b'/9j/4AAQ'"
       +:+ dq +:+ ", " +:+ dq +:+ "parameters" +:+ dq +:+ ": {}}]".

(** The global names after the cells before the classifier selection, in
    a kernel that runs the notebook from the top. *)
Definition globals_before_selection : gmap string pyval :=
  <[ "dnn_model" := PObj "CNTKTLModel" ]>
  (<[ "train_set" := PObj "ClassificationDataset" ]>
  (<[ "test_set" := PObj "ClassificationDataset" ]>
  (<[ "lr_per_mb" := PList (replicate 7 (PFloat 4587366580439587226) ++
                            replicate 7 (PFloat 4572414629676717179) ++
                            [PFloat 4557750909289998844]) ]>
  (<[ "mb_size" := PInt 32 ]> ∅)))).

Definition train (model train_set lr_per_mb mb_size test_set : pyval)
  : result unit := Ok tt.

(** A cloud account: the names of the deployed services. *)
Definition is_existing_service (name : string) (c : gset string) : bool :=
  bool_decide (name ∈ c).
Definition delete_if_service_exist (name : string) (c : gset string)
  : result (gset string) := Ok (c ∖ {[ name ]}).
Definition deploy (name : string) (c : gset string)
  : result (gset string) := Ok ({[ name ]} ∪ c).

Definition run_deployment (name : string) (c : gset string) :=
  deployment_cell (gset string) is_existing_service
    delete_if_service_exist deploy name c.

End Sample.

(** ** The other cells of the notebook

    The cells that describe the dataset, plot the training curves, label
    the predictions, prepare the precision/recall viewer and time the
    scoring calls.  What they print, plot or call is a log of entries of
    the cell's own kind. *)

Module Workflow.
Import Py Notebook.

Definition logged (E A : Type) : Type := (list E * result A)%type.

Definition entries {E A} (m : logged E A) : list E := fst m.
Definition final {E A} (m : logged E A) : result A := snd m.

#[export] Instance logged_ret {E} : MRet (logged E) := fun A a => ([], Ok a).

#[export] Instance logged_bind {E} : MBind (logged E) := fun A B k m =>
  match m with
  | (t, Ok a) => let '(t', r) := k a in (t ++ t', r)
  | (t, Raised e) => (t, Raised e)
  end.

Definition say {E} (e : E) : logged E unit := ([e], Ok tt).
Definition lift {E A} (r : result A) : logged E A := ([], r).

(** [l[i]] on a list, for an index that is not negative. *)
Definition list_getitem {A} (l : list A) (i : nat) : result A :=
  match l !! i with
  | Some x => Ok x
  | None => Raised IndexError
  end.

(** *** The dataset objects the cells read

    A label has a name; an image has a name, its labels, a storage id and
    a storage path; a dataset has images and labels. *)
Record label : Type := { label_name : string }.

Record image : Type := {
  image_name : string;
  image_labels : list label;
  image_storage_id : string;
  image_storage_path : string
}.

Record dataset : Type := {
  dataset_images : list image;
  dataset_labels : list label
}.

(** *** The cell that describes the dataset: two [print] calls, the
    second about image 2 and its first label. *)
Definition describe_dataset (d : dataset) : logged string unit :=
  _ ← say ("Dataset consists of " +:+ pretty (length (dataset_images d))
           +:+ " images with " +:+ pretty (length (dataset_labels d))
           +:+ " labels.");
  img ← lift (list_getitem (dataset_images d) 2);
  lbl ← lift (list_getitem (image_labels img) 0);
  say ("Select information for image 2: name=" +:+ image_name img
       +:+ ", label=" +:+ label_name lbl
       +:+ ", unique id=" +:+ image_storage_id img +:+ ".").

(** *** The cell that plots the training curves *)
Inductive plot_call : Type :=
| Xlabel (text : string)
| Ylabel (text : string)
| Plot (x y : pyval) (fmt label : string)
| Legend.

(** [v == "literal"]: a value that is not a [str] is not equal to one. *)
Definition eq_str (v : pyval) (s : string) : bool :=
  match v with
  | PStr t => String.eqb t s
  | _ => false
  end.

(** [[a, b, c] = items], on the items the right-hand side yields. *)
Definition unpack3 (items : list pyval) : result (pyval * pyval * pyval) :=
  match items with
  | [a; b; c] => Ok (a, b, c)
  | _ :: _ :: _ :: _ :: _ =>
      Raised (ValueError "too many values to unpack (expected 3)")
  | _ =>
      Raised (ValueError ("not enough values to unpack (expected 3, got "
                          +:+ pretty (length items) +:+ ")"))
  end.

Section Plotting.

(** The items of [classifier.train_eval_accs], and the value of
    [plt.plot(x, y, fmt, label = label)]. *)
Variable train_eval_accs : pyval -> result (list pyval).
Variable plt_plot : pyval -> pyval -> string -> string -> result pyval.

Definition plot (x y : pyval) (fmt label : string) : logged plot_call pyval :=
  _ ← say (Plot x y fmt label);
  lift (plt_plot x y fmt label).

Definition plot_cell (globals : gmap string pyval)
  : logged plot_call (gmap string pyval) :=
  classifier_name ← lift (lookup_name "classifier_name" globals);
  if eq_str classifier_name "dnn" then
    classifier ← lift (lookup_name "classifier" globals);
    items ← lift (train_eval_accs classifier);
    '(train_accs, test_accs, epoch_numbers) ← lift (unpack3 items);
    let globals :=
      <[ "epoch_numbers" := epoch_numbers ]>
        (<[ "test_accs" := test_accs ]>
           (<[ "train_accs" := train_accs ]> globals)) in
    _ ← say (Xlabel "Number of training epochs");
    _ ← say (Ylabel "Classification accuracy");
    train_plot ← plot epoch_numbers train_accs "r-" "Training accuracy";
    let globals := <[ "train_plot" := train_plot ]> globals in
    test_plot ← plot epoch_numbers test_accs "b-." "Test accuracy";
    let globals := <[ "test_plot" := test_plot ]> globals in
    _ ← say Legend;
    mret globals
  else mret globals.

End Plotting.

(** *** The cell that labels the predictions

    [labels = [l.name for l in dataset.labels]], then
    [[labels[i] for i in indices]] for the indices that
    [np.argmax(pred_scores, axis=1)] returns. *)
Fixpoint select_labels (labels : list string) (indices : list nat)
  : result (list string) :=
  match indices with
  | [] => Ok []
  | i :: rest =>
      l ← list_getitem labels i;
      ls ← select_labels labels rest;
      Ok (l :: ls)
  end.

Definition pred_labels (d : dataset) (indices : list nat)
  : result (list string) :=
  let labels := map label_name (dataset_labels d) in
  select_labels labels indices.

(** *** The cell that prepares the precision/recall viewer

    The three sequences come from [compute_precision_recall_curve];
    [100 * a[::-1]] on an array scales each entry of the reversed array. *)
Section PrecisionRecall.

Variable num : Type.
Variable times100 : num -> num.

(** [l[-1]] *)
Definition last_item (l : list num) : result num :=
  match last l with
  | Some x => Ok x
  | None => Raised IndexError
  end.

(** The arguments [PrecisionRecallUI] is called with. *)
Definition pr_ui_arguments (precisions recalls thresholds : list num)
  : result (list num * list num * list num) :=
  t ← last_item thresholds;
  let thresholds := thresholds ++ [t] in
  Ok (map times100 (reverse precisions),
      map times100 (reverse recalls),
      reverse thresholds).

End PrecisionRecall.

(** *** The cell that times the scoring calls *)
Inductive timing_entry : Type :=
| PrintCalling (text : string)
| ScoreImage (path : string) (image_resize_dims : list Z)
| PrintElapsed
| PrintResult (return_json : pyval).

Definition calling_message (img_index num_images : nat) (name : string)
  : string :=
  "Calling API for image " +:+ pretty img_index +:+ " of "
  +:+ pretty num_images +:+ ": " +:+ name +:+ "...".

Section Timing.

(** [deploy_obj.score_image(path, image_resize_dims = dims)] *)
Variable score_image : string -> list Z -> result pyval.

Definition call_score_image (path : string) (dims : list Z)
  : logged timing_entry pyval :=
  _ ← say (ScoreImage path dims);
  lift (score_image path dims).

(** The loop body over [enumerate(images)], from index [img_index] on.
    The text of the second [print] depends on the clock and is left out
    of its entry. *)
Fixpoint timing_loop (num_images img_index : nat) (images : list image)
  : logged timing_entry unit :=
  match images with
  | [] => mret tt
  | img_obj :: rest =>
      _ ← say (PrintCalling
                 (calling_message img_index num_images (image_name img_obj)));
      return_json ←
        call_score_image (image_storage_path img_obj) [224; 224]%Z;
      _ ← say PrintElapsed;
      _ ← say (PrintResult return_json);
      timing_loop num_images (S img_index) rest
  end.

Definition timing_cell (test_images : list image) : logged timing_entry unit :=
  let num_images := 10 in
  timing_loop num_images 0 (take num_images test_images).

(** The paths scored, in order. *)
Definition scored_paths (t : list timing_entry) : list string :=
  omap (fun e => match e with ScoreImage p _ => Some p | _ => None end) t.

End Timing.

End Workflow.

(** ** Concrete data for the other cells *)

Module WorkflowSample.
Import Py Notebook Workflow.

(** A service that answers with one JSON string instead of a list. *)
Definition string_response : string :=
  Sample.dq +:+ "7 cups" +:+ Sample.dq.

Definition string_service (url body : string) (headers : gmap string string)
  : result string := Ok string_response.

(** A service that cannot be reached. *)
Definition down_service (url body : string) (headers : gmap string string)
  : result string := Raised (LibraryError "ConnectionError").

Definition lbl (name : string) : label := {| label_name := name |}.

Definition img (class name : string) : image :=
  {| image_name := name;
     image_labels := [lbl class];
     image_storage_id := "id-" +:+ name;
     image_storage_path := "../sample_data/imgs_recycling/" +:+ class
                           +:+ "/" +:+ name |}.

Definition recycling_labels : list label :=
  [lbl "bowl"; lbl "cup"; lbl "cutlery"; lbl "plate"].

Definition recycling : dataset :=
  {| dataset_images := [img "bowl" "b1.jpg"; img "bowl" "b2.jpg";
                        img "cup" "c1.jpg"; img "plate" "p1.jpg"];
     dataset_labels := recycling_labels |}.

(** A dataset of two images. *)
Definition tiny : dataset :=
  {| dataset_images := [img "bowl" "b1.jpg"; img "cup" "c1.jpg"];
     dataset_labels := [lbl "bowl"; lbl "cup"] |}.

(** Twelve test images. *)
Definition twelve : list image :=
  map (fun k : nat => img "cup" ("c" +:+ pretty k +:+ ".jpg")) (seq 0 12).

Definition score_image_ok (path : string) (dims : list Z) : result pyval :=
  Ok (PStr Sample.scores).

(** The service fails on image [c3.jpg]. *)
Definition score_image_flaky (path : string) (dims : list Z) : result pyval :=
  if String.eqb path "../sample_data/imgs_recycling/cup/c3.jpg"
  then Raised (LibraryError "ConnectionError")
  else Ok (PStr Sample.scores).

(** A model whose training history has three items, and one with two. *)
Definition history (m : pyval) : result (list pyval) :=
  match m with
  | PObj "CNTKTLModel" =>
      Ok [PList [PInt 60; PInt 90]; PList [PInt 55; PInt 80];
          PList [PInt 1; PInt 2]]
  | _ => Ok [PList []; PList []]
  end.

Definition line2d (x y : pyval) (fmt label : string) : result pyval :=
  Ok (PList [PObj "Line2D"]).

(** An account in which the deletion is refused. *)
Definition delete_denied (name : string) (c : gset string)
  : result (gset string) := Raised (LibraryError "az ml service delete").

(** The globals after a selection with the name DNN. *)
Definition globals_after_DNN : gmap string pyval :=
  <[ "classifier" := PObj "CNTKTLModel" ]>
    (<[ "classifier_name" := PStr "DNN" ]> Sample.globals_before_selection).

Definition globals_after_dnn : gmap string pyval :=
  <[ "classifier" := PObj "CNTKTLModel" ]>
    (<[ "classifier_name" := PStr "dnn" ]> Sample.globals_before_selection).

(** A model object without a full history, selected under the name dnn. *)
Definition globals_short_history : gmap string pyval :=
  <[ "classifier" := PObj "ScikitClassifier" ]>
    (<[ "classifier_name" := PStr "dnn" ]> ∅).

End WorkflowSample.

Example b64encode_Man :
  Py.decode_ascii (Base64.b64encode (list_byte_of_string "Man")) = "TWFu".
Proof. reflexivity. Qed.

Example b64encode_Ma :
  Py.decode_ascii (Base64.b64encode (list_byte_of_string "Ma")) = "TWE=".
Proof. reflexivity. Qed.

Example b64encode_M :
  Py.decode_ascii (Base64.b64encode (list_byte_of_string "M")) = "TQ==".
Proof. reflexivity. Qed.

Example bytes_repr_plain :
  Py.bytes_repr (list_byte_of_string "TQ==") = "b'TQ=='".
Proof. reflexivity. Qed.

Example sample_score_ok :
  Sample.score "cup.jpg" Sample.score_url None (Py.PDict []) =
  ([Notebook.OpenRead "cup.jpg";
    Notebook.HttpPost Sample.score_url Sample.cup_body
      (Notebook.build_headers None)],
   Py.Ok (Py.PStr Sample.scores)).
Proof. vm_compute. reflexivity. Qed.

Example sample_score_broken :
  Notebook.outcome
    (Sample.score "cup.jpg" Sample.broken_url None (Py.PDict [])) =
  Py.Raised (Py.ValueError
    ("Incorrect output format. Result cant not be parsed: " +:+
     Sample.bad_response)).
Proof. vm_compute. reflexivity. Qed.

Example sample_score_missing_file :
  Sample.score "none.jpg" Sample.score_url None (Py.PDict []) =
  ([Notebook.OpenRead "none.jpg"], Py.Raised (Py.OSError "none.jpg")).
Proof. vm_compute. reflexivity. Qed.

Example sample_select_dnn :
  match Notebook.classifier_cell Sample.train "DNN"
          Sample.globals_before_selection with
  | Py.Ok globals => globals !! "classifier" = Some (Py.PObj "CNTKTLModel")
  | Py.Raised _ => False
  end.
Proof. vm_compute. reflexivity. Qed.

Example sample_deploy_fresh :
  (Sample.run_deployment "icdeployment" ∅).1 =
  [ (Notebook.IsExistingService "icdeployment", ∅);
    (Notebook.Deploy "icdeployment", ∅) ].
Proof. reflexivity. Qed.

(** ** The text form of base64 output *)

Section Base64Facts.
Import Py Base64.

Lemma alphabet_plain i :
  plain (byte_of_ascii (nth i alphabet "A"%char)) = true.
Proof.
  do 64 (destruct i as [|i]; [reflexivity|]). by destruct i.
Qed.

Lemma sextet_plain n shift : plain (sextet n shift) = true.
Proof. apply alphabet_plain. Qed.

Lemma pad_plain : plain pad = true.
Proof. reflexivity. Qed.

Lemma b64encode_step a b c rest :
  b64encode (a :: b :: c :: rest) =
  sextet (group3 a b c) 18 :: sextet (group3 a b c) 12 ::
  sextet (group3 a b c) 6 :: sextet (group3 a b c) 0 :: b64encode rest.
Proof. reflexivity. Qed.

(** Induction on a list three elements at a time, as [b64encode] recurses. *)
Lemma list_ind_by3 {A} (P : list A -> Prop) :
  P [] -> (forall a, P [a]) -> (forall a b, P [a; b]) ->
  (forall a b c rest, P rest -> P (a :: b :: c :: rest)) ->
  forall l, P l.
Proof.
  intros H0 H1 H2 H3.
  assert (Hall : forall l, P l /\ (forall a, P (a :: l)) /\
                           (forall a b, P (a :: b :: l))).
  { induction l as [|x l (IH0 & IH1 & IH2)].
    - repeat split; auto.
    - repeat split; auto. }
  intros l. apply Hall.
Qed.

Lemma b64encode_plain data : forallb plain (b64encode data) = true.
Proof.
  induction data as [|a|a b|a b c rest IH] using list_ind_by3.
  - reflexivity.
  - cbn [b64encode forallb]. by rewrite !sextet_plain, pad_plain.
  - cbn [b64encode forallb]. by rewrite !sextet_plain, pad_plain.
  - rewrite b64encode_step. cbn [forallb]. by rewrite !sextet_plain, IH.
Qed.

Lemma plain_not_squote b :
  plain b = true -> Ascii.eqb (ascii_of_byte b) squote = false.
Proof.
  unfold plain. destruct (Ascii.eqb (ascii_of_byte b) squote); [|done].
  discriminate.
Qed.

Lemma repr_byte_plain b :
  plain b = true ->
  repr_byte squote b = String (ascii_of_byte b) EmptyString.
Proof.
  revert b. intros []; (discriminate || reflexivity).
Qed.

Lemma has_squote_plain bs :
  forallb plain bs = true -> has_byte squote bs = false.
Proof.
  induction bs as [|b bs IH]; [done|].
  cbn [forallb has_byte existsb]. intros [Hb Hbs]%andb_prop.
  rewrite (plain_not_squote b Hb). cbn. by apply IH.
Qed.

Lemma repr_body_plain bs :
  forallb plain bs = true -> repr_body squote bs = decode_ascii bs.
Proof.
  induction bs as [|b bs IH]; [done|].
  cbn [forallb repr_body]. intros [Hb Hbs]%andb_prop.
  rewrite (repr_byte_plain b Hb), (IH Hbs). reflexivity.
Qed.

Lemma bytes_repr_plain_bytes bs :
  forallb plain bs = true ->
  bytes_repr bs = "b'" +:+ decode_ascii bs +:+ "'".
Proof.
  intros Hbs. unfold bytes_repr, repr_quote.
  rewrite (has_squote_plain bs Hbs). cbn [andb].
  rewrite (repr_body_plain bs Hbs). reflexivity.
Qed.

Lemma string_length_app (s1 s2 : string) :
  String.length (s1 +:+ s2) = String.length s1 + String.length s2.
Proof. induction s1 as [|c s1 IH]; simpl; [done|]. by f_equal. Qed.

(** C9: the ["image_in_base64"] field of the request is the text form of
    the [bytes] object that [b64encode] returns, that is the base64 text
    wrapped in [b'] and ['], and so it is not the bare base64 text. *)
Theorem image_in_base64_is_repr_of_bytes image_buffer parameters :
  let encoded := b64encode image_buffer in
  let field := "b'" +:+ decode_ascii encoded +:+ "'" in
  exists request,
    Notebook.build_payload image_buffer parameters = [request] /\
    dict_get "image_in_base64" request = Some (PStr field) /\
    field = bytes_repr encoded /\
    field <> decode_ascii encoded.
Proof.
  intros encoded field. eexists. split; [reflexivity|]. split; [|split].
  - cbn. unfold format0_bytes.
    by rewrite (bytes_repr_plain_bytes _ (b64encode_plain image_buffer)).
  - symmetry. apply bytes_repr_plain_bytes, b64encode_plain.
  - intros Heq. apply (f_equal String.length) in Heq.
    unfold field in Heq. rewrite !string_length_app in Heq. cbn in Heq. lia.
Qed.

End Base64Facts.

(** ** Properties of [score_image_with_http] *)

Section ScoringFacts.
Import Py Notebook.

Variable fs : gmap string (list byte).
Variable json_dumps : pyval -> result string.
Variable json_loads : string -> result pyval.
Variable service : string -> string -> gmap string string -> result string.

Abbreviation score :=
  (score_image_with_http fs json_dumps json_loads service).

(** The whole run, case by case: which events happen and what comes out. *)
Lemma score_unfold image url key parameters :
  score image url key parameters =
  match fs !! image with
  | None => ([OpenRead image], Raised (OSError image))
  | Some content =>
      match json_dumps (PList (build_payload content parameters)) with
      | Raised e => ([OpenRead image], Raised e)
      | Ok body =>
          let post := HttpPost url body (build_headers key) in
          match service url body (build_headers key) with
          | Raised e => ([OpenRead image; post], Raised e)
          | Ok text => ([OpenRead image; post], answer json_loads text)
          end
      end
  end.
Proof.
  unfold score_image_with_http, open_read, requests_post, parse_response.
  unfold answer.
  unfold mbind, mret, io_bind, io_ret, pure, raise, emit, try_except.
  cbn.
  destruct (fs !! image) as [content|]; cbn; [|reflexivity].
  destruct (json_dumps _) as [body|e]; cbn; [|reflexivity].
  destruct (service _ _ _) as [text|e]; cbn; [|reflexivity].
  destruct (json_loads text) as [v|e]; cbn; [|reflexivity].
  destruct (getitem0 v) as [first|e] eqn:Hfirst; cbn; [|reflexivity].
  destruct (json_loads_value json_loads first) as [w|e]; cbn; [|reflexivity].
  rewrite Hfirst. reflexivity.
Qed.

Lemma score_trace image url key parameters :
  trace (score image url key parameters) =
  OpenRead image ::
  match fs !! image with
  | None => []
  | Some content =>
      match json_dumps (PList (build_payload content parameters)) with
      | Raised _ => []
      | Ok body => [HttpPost url body (build_headers key)]
      end
  end.
Proof.
  rewrite score_unfold.
  destruct (fs !! image); [|reflexivity].
  destruct (json_dumps _); [|reflexivity].
  cbn. destruct (service _ _ _); reflexivity.
Qed.

(** Every request in the trace is the one the function builds. *)
Lemma score_post_inv image url key parameters u body h :
  HttpPost u body h ∈ trace (score image url key parameters) ->
  exists content,
    fs !! image = Some content /\
    json_dumps (PList (build_payload content parameters)) = Ok body /\
    u = url /\ h = build_headers key.
Proof.
  rewrite score_trace. intros Hin.
  apply elem_of_cons in Hin as [Hin|Hin]; [discriminate|].
  destruct (fs !! image) as [content|] eqn:Hfile;
    [|by apply not_elem_of_nil in Hin].
  destruct (json_dumps _) as [b|] eqn:Hbody;
    [|by apply not_elem_of_nil in Hin].
  apply list_elem_of_singleton in Hin. injection Hin as -> -> ->.
  by exists content.
Qed.

(** C10: the header dictionary always has the entry
    ["Content-Type": "application/json"]; it has an ["Authorization"]
    entry exactly when [service_key] is not [None], and that entry is
    ["Bearer "] followed by the key; and these are the headers of every
    request the function sends. *)
Theorem headers_content_type_and_authorization image url key parameters :
  build_headers key !! "Content-Type" = Some "application/json" /\
  build_headers key !! "Authorization" =
    (fun k => "Bearer " +:+ k) <$> key /\
  (is_Some (build_headers key !! "Authorization") <-> is_Some key) /\
  Forall (fun e => match e with
                   | HttpPost _ _ h => h = build_headers key
                   | OpenRead _ => True
                   end)
         (trace (score image url key parameters)).
Proof.
  split; [|split; [|split]].
  - destruct key; cbn; by simplify_map_eq.
  - destruct key; cbn; by simplify_map_eq.
  - destruct key; cbn; simplify_map_eq; split; intros [x Hx]; eauto;
      discriminate.
  - rewrite score_trace. constructor; [exact I|].
    destruct (fs !! image); [|constructor].
    destruct (json_dumps _); constructor; [reflexivity|constructor].
Qed.

(** C3: the body of a request the function posts is the JSON
    serialisation of a list of objects, each with exactly the two keys
    ["image_in_base64"] and ["parameters"]. *)
Theorem request_body_is_list_of_image_requests
    image url key parameters u body h :
  HttpPost u body h ∈ trace (score image url key parameters) ->
  exists content payload,
    fs !! image = Some content /\
    payload = build_payload content parameters /\
    json_dumps (PList payload) = Ok body /\
    Forall (fun o => dict_keys o = Some ["image_in_base64"; "parameters"])
           payload.
Proof.
  intros Hin. apply score_post_inv in Hin as (content & Hfile & Hbody & _).
  exists content, (build_payload content parameters).
  repeat split; try assumption. repeat constructor.
Qed.

(** C8: the payload list of a request the function posts has length
    one, whatever the arguments. *)
Theorem request_payload_has_one_image image url key parameters u body h :
  HttpPost u body h ∈ trace (score image url key parameters) ->
  exists content payload,
    fs !! image = Some content /\
    payload = build_payload content parameters /\
    json_dumps (PList payload) = Ok body /\
    length payload = 1.
Proof.
  intros Hin. apply score_post_inv in Hin as (content & Hfile & Hbody & _).
  by exists content, (build_payload content parameters).
Qed.

(** C4: when the response text decodes as a list whose first element is
    a string that itself decodes as JSON, the function returns that
    string, as received. *)
Theorem well_formed_response_returned_unchanged
    image url key parameters content body text s rest :
  fs !! image = Some content ->
  json_dumps (PList (build_payload content parameters)) = Ok body ->
  service url body (build_headers key) = Ok text ->
  json_loads text = Ok (PList (PStr s :: rest)) ->
  is_ok (json_loads s) = true ->
  outcome (score image url key parameters) = Ok (PStr s).
Proof.
  intros Hfile Hbody Hpost Htext Hs.
  rewrite score_unfold, Hfile, Hbody. cbn. rewrite Hpost. cbn.
  unfold answer. rewrite Htext. cbn.
  by destruct (json_loads s).
Qed.

(** C2: when the response text does not decode as JSON, or decodes to a
    value whose first element is not a string that decodes as JSON, the
    function raises [ValueError] with the message ["Incorrect output
    format. Result cant not be parsed: "] followed by the text. *)
Theorem malformed_response_raises_value_error
    image url key parameters content body text :
  fs !! image = Some content ->
  json_dumps (PList (build_payload content parameters)) = Ok body ->
  service url body (build_headers key) = Ok text ->
  (is_ok (json_loads text) = false \/
   exists v, json_loads text = Ok v /\
     forall s, getitem0 v = Ok (PStr s) -> is_ok (json_loads s) = false) ->
  outcome (score image url key parameters) =
  Raised (ValueError
    ("Incorrect output format. Result cant not be parsed: " +:+ text)).
Proof.
  intros Hfile Hbody Hpost Hbad.
  rewrite score_unfold, Hfile, Hbody. cbn. rewrite Hpost. cbn.
  unfold answer.
  destruct Hbad as [Hbad | (v & Hv & Hfirst)].
  - by destruct (json_loads text).
  - rewrite Hv. destruct (getitem0 v) as [first|e]; [|reflexivity].
    destruct first; try reflexivity. cbn.
    specialize (Hfirst s eq_refl). by destruct (json_loads s).
Qed.

(** C7, as the code has it: an invocation sends one request when the
    image file can be read and the payload serialises, and none
    otherwise; in no case more than one, whatever the service answers. *)
Theorem score_posts_at_most_once image url key parameters :
  length (posts (trace (score image url key parameters))) =
    match fs !! image with
    | Some content =>
        if is_ok (json_dumps (PList (build_payload content parameters)))
        then 1 else 0
    | None => 0
    end /\
  length (posts (trace (score image url key parameters))) <= 1.
Proof.
  rewrite score_trace.
  destruct (fs !! image); cbn; [|lia].
  destruct (json_dumps _); cbn; lia.
Qed.

End ScoringFacts.

(** The claim that every invocation sends exactly one request fails on a
    path that names no file: [open] raises before anything is sent. *)
Lemma missing_file_sends_no_request :
  length (Notebook.posts (Notebook.trace
    (Sample.score "none.jpg" Sample.score_url None (Py.PDict [])))) <> 1.
Proof. vm_compute. discriminate. Qed.

(** ** The classifier-selection cell *)

Section SelectionFacts.
Import Py Notebook.

Variable train : pyval -> pyval -> pyval -> pyval -> pyval -> result unit.

(** For a name other than dnn the cell evaluates
    ["Classifier unknown: " + classifier], with the global [classifier]
    and not [classifier_name]. *)
Lemma classifier_cell_unknown classifier_name globals :
  str_lower classifier_name <> "dnn" ->
  classifier_cell train classifier_name globals =
  match globals !! "classifier" with
  | None => Raised (NameError "classifier")
  | Some (PStr s) => Raised (Exception ("Classifier unknown: " +:+ s))
  | Some _ => Raised TypeError
  end.
Proof.
  intros Hname. unfold classifier_cell.
  destruct (String.eqb_spec (str_lower classifier_name) "dnn") as [|_];
    [contradiction|].
  unfold lookup_name. rewrite lookup_insert_ne by discriminate.
  destruct (globals !! "classifier") as [[]|]; reflexivity.
Qed.

(** C1 at the name svm: in a kernel run from the top [classifier] is
    unbound and the cell raises [NameError]; after an earlier run with
    dnn it is the model object and the cell raises [TypeError].  In
    neither case the [Exception] with the message for svm. *)
Theorem unknown_classifier_svm :
  classifier_cell train "svm" Sample.globals_before_selection =
    Raised (NameError "classifier") /\
  classifier_cell train "svm"
    (<[ "classifier" := PObj "CNTKTLModel" ]> Sample.globals_before_selection) =
    Raised TypeError /\
  classifier_cell train "svm" Sample.globals_before_selection <>
    Raised (Exception "Classifier unknown: svm").
Proof.
  rewrite !classifier_cell_unknown by (cbn; discriminate).
  split; [reflexivity | split; [reflexivity | discriminate]].
Qed.

End SelectionFacts.

(** ** The deployment cell *)

Section DeploymentFacts.
Import Py Notebook.

Variable cloud : Type.
Variable is_existing_service : string -> cloud -> bool.
Variable delete_if_service_exist : string -> cloud -> result cloud.
Variable deploy : string -> cloud -> result cloud.

Abbreviation cell :=
  (deployment_cell cloud is_existing_service delete_if_service_exist deploy).

(** C6: [deploy] is called for the deployment name only, and only after
    the check; when the check finds a service of that name,
    [delete_if_service_exist] is called for it first, has returned, and
    [deploy] runs in the state the deletion left.  So, deletion removing
    the service of that name, [deploy] never runs while one exists. *)
Theorem deploy_only_after_delete name c n c' :
  (Deploy n, c') ∈ (cell name c).1 ->
  n = name /\
  (if is_existing_service name c
   then delete_if_service_exist name c = Ok c' /\
        (cell name c).1 = [ (IsExistingService name, c);
                            (DeleteIfServiceExist name, c);
                            (Deploy name, c') ]
   else c' = c /\
        (cell name c).1 = [ (IsExistingService name, c); (Deploy name, c) ]) /\
  ((forall c0 c1, delete_if_service_exist name c0 = Ok c1 ->
                  is_existing_service name c1 = false) ->
   is_existing_service name c' = false).
Proof.
  unfold deployment_cell.
  destruct (is_existing_service name c) eqn:Hex.
  - destruct (delete_if_service_exist name c) as [c1|e] eqn:Hdel; cbn.
    + rewrite !elem_of_cons, elem_of_nil.
      intros [H|[H|[H|[]]]]; try discriminate.
      injection H as -> ->. eauto.
    + rewrite !elem_of_cons, elem_of_nil.
      intros [H|[H|[]]]; discriminate.
  - cbn. rewrite !elem_of_cons, elem_of_nil.
    intros [H|[H|[]]]; try discriminate.
    injection H as -> ->. auto.
Qed.

End DeploymentFacts.

(** ** The theorems on the concrete world *)

Section Witnesses.
Import Py Notebook.

Lemma request_body_is_list_of_image_requests_witness :
  exists content payload,
    Sample.files !! "cup.jpg" = Some content /\
    payload = build_payload content (PDict []) /\
    Json.dumps (PList payload) = Ok Sample.cup_body /\
    Forall (fun o => dict_keys o = Some ["image_in_base64"; "parameters"])
           payload.
Proof.
  apply (request_body_is_list_of_image_requests
           Sample.files Json.dumps Json.loads Sample.service
           "cup.jpg" Sample.score_url None (PDict [])
           Sample.score_url Sample.cup_body (build_headers None)).
  vm_compute. constructor 2. constructor 1.
Defined.

Lemma request_payload_has_one_image_witness :
  exists content payload,
    Sample.files !! "cup.jpg" = Some content /\
    payload = build_payload content (PDict [("add_softmax", PBool true)]) /\
    Json.dumps (PList payload) =
      Ok ("[{" +:+ Sample.dq +:+ "image_in_base64" +:+ Sample.dq +:+ ": "
          +:+ Sample.dq +:+ "b'/9j/4AAQ'" +:+ Sample.dq +:+ ", "
          +:+ Sample.dq +:+ "parameters" +:+ Sample.dq +:+ ": {"
          +:+ Sample.dq +:+ "add_softmax" +:+ Sample.dq +:+ ": true}}]") /\
    length payload = 1.
Proof.
  apply (request_payload_has_one_image
           Sample.files Json.dumps Json.loads Sample.service
           "cup.jpg" Sample.score_url (Some "secret")
           (PDict [("add_softmax", PBool true)])
           Sample.score_url _ (build_headers (Some "secret"))).
  vm_compute. constructor 2. constructor 1.
Defined.

Lemma well_formed_response_returned_unchanged_witness :
  outcome (Sample.score "cup.jpg" Sample.score_url None (PDict [])) =
  Ok (PStr Sample.scores).
Proof.
  apply (well_formed_response_returned_unchanged
           Sample.files Json.dumps Json.loads Sample.service
           "cup.jpg" Sample.score_url None (PDict [])
           Sample.cup_jpg Sample.cup_body Sample.good_response
           Sample.scores []).
  - vm_compute. reflexivity.
  - vm_compute. reflexivity.
  - vm_compute. reflexivity.
  - vm_compute. reflexivity.
  - vm_compute. reflexivity.
Defined.

Lemma malformed_response_raises_value_error_witness :
  outcome (Sample.score "cup.jpg" Sample.broken_url None (PDict [])) =
  Raised (ValueError
    ("Incorrect output format. Result cant not be parsed: " +:+
     Sample.bad_response)).
Proof.
  apply (malformed_response_raises_value_error
           Sample.files Json.dumps Json.loads Sample.service
           "cup.jpg" Sample.broken_url None (PDict [])
           Sample.cup_jpg Sample.cup_body Sample.bad_response).
  - vm_compute. reflexivity.
  - vm_compute. reflexivity.
  - vm_compute. reflexivity.
  - left. vm_compute. reflexivity.
Defined.

(** In the sample account deletion removes the name. *)
Lemma sample_delete_removes name (c0 c1 : gset string) :
  Sample.delete_if_service_exist name c0 = Ok c1 ->
  Sample.is_existing_service name c1 = false.
Proof.
  unfold Sample.delete_if_service_exist, Sample.is_existing_service.
  intros Heq. injection Heq as <-. apply bool_decide_eq_false.
  rewrite elem_of_difference, elem_of_singleton. tauto.
Qed.

Lemma deploy_only_after_delete_witness :
  let name := "icdeployment" in
  let c : gset string := {[ "icdeployment"; "other" ]} in
  let c' : gset string := c ∖ {[ name ]} in
  Sample.is_existing_service name c = true /\
  Sample.delete_if_service_exist name c = Ok c' /\
  (Sample.run_deployment name c).1 =
    [ (IsExistingService name, c);
      (DeleteIfServiceExist name, c);
      (Deploy name, c') ] /\
  Sample.is_existing_service name c' = false.
Proof.
  intros name c c'.
  assert (Hex : Sample.is_existing_service name c = true)
    by (vm_compute; reflexivity).
  assert (Hin : (Deploy name, c') ∈ (Sample.run_deployment name c).1).
  { unfold Sample.run_deployment, deployment_cell. rewrite Hex. cbn.
    constructor 2. constructor 2. constructor 1. }
  destruct (deploy_only_after_delete (gset string)
              Sample.is_existing_service Sample.delete_if_service_exist
              Sample.deploy name c name c' Hin) as (_ & Hlog & Hgone).
  rewrite Hex in Hlog. destruct Hlog as [Hdel Hlog].
  split; [exact Hex|]. split; [exact Hdel|]. split; [exact Hlog|].
  apply Hgone. intros c0 c1. apply sample_delete_removes.
Defined.

End Witnesses.

(** ** More on [score_image_with_http] *)

Section ScoringExtras.
Import Py Notebook.

Variable fs : gmap string (list byte).
Variable json_dumps : pyval -> result string.
Variable json_loads : string -> result pyval.
Variable service : string -> string -> gmap string string -> result string.

Abbreviation score' :=
  (score_image_with_http fs json_dumps json_loads service).


(** X2: when [json.dumps] raises on the payload, the call ends with that
    exception and no request is sent. *)
Theorem unserialisable_payload_sends_nothing
    image url key parameters content e :
  fs !! image = Some content ->
  json_dumps (PList (build_payload content parameters)) = Raised e ->
  score' image url key parameters = ([OpenRead image], Raised e).
Proof. intros Hfile Hbody. by rewrite score_unfold, Hfile, Hbody. Qed.

(** X3: an exception of [requests.post] leaves the function as it is; it
    is not turned into the [ValueError] of a malformed response, and the
    one request is not repeated. *)
Theorem transport_error_propagates
    image url key parameters content body e :
  fs !! image = Some content ->
  json_dumps (PList (build_payload content parameters)) = Ok body ->
  service url body (build_headers key) = Raised e ->
  score' image url key parameters =
  ([OpenRead image; HttpPost url body (build_headers key)], Raised e).
Proof.
  intros Hfile Hbody Hpost. rewrite score_unfold, Hfile, Hbody. cbn.
  by rewrite Hpost.
Qed.

(** X4: whatever the function returns is a [str] that decodes as JSON,
    and it is element [0] of the decoded response text. *)
Theorem returned_value_is_json_string image url key parameters v :
  outcome (score' image url key parameters) = Ok v ->
  exists content body text decoded s,
    fs !! image = Some content /\
    json_dumps (PList (build_payload content parameters)) = Ok body /\
    service url body (build_headers key) = Ok text /\
    json_loads text = Ok decoded /\
    getitem0 decoded = Ok (PStr s) /\
    is_ok (json_loads s) = true /\
    v = PStr s.
Proof.
  rewrite score_unfold.
  destruct (fs !! image) as [content|] eqn:Hfile; [|discriminate].
  destruct (json_dumps _) as [body|] eqn:Hbody; [|discriminate].
  cbn. destruct (service _ _ _) as [text|] eqn:Hpost; [|discriminate].
  cbn. unfold answer.
  destruct (json_loads text) as [decoded|] eqn:Htext; [|discriminate].
  destruct (getitem0 decoded) as [first|] eqn:Hfirst; [|discriminate].
  destruct first; try discriminate. cbn.
  destruct (json_loads s) eqn:Hs; [|discriminate].
  intros [= <-]. exists content, body, text, decoded, s.
  by rewrite Hs.
Qed.

(** X5: the response is not required to be a list.  When it decodes to a
    non-empty [str] whose first character decodes as JSON, the function
    returns that one character. *)
Theorem bare_string_response_returns_first_character
    image url key parameters content body text c rest :
  fs !! image = Some content ->
  json_dumps (PList (build_payload content parameters)) = Ok body ->
  service url body (build_headers key) = Ok text ->
  json_loads text = Ok (PStr (String c rest)) ->
  is_ok (json_loads (String c EmptyString)) = true ->
  outcome (score' image url key parameters) =
  Ok (PStr (String c EmptyString)).
Proof.
  intros Hfile Hbody Hpost Htext Hc.
  rewrite score_unfold, Hfile, Hbody. cbn. rewrite Hpost. cbn.
  unfold answer. rewrite Htext. cbn.
  by destruct (json_loads (String c EmptyString)).
Qed.


(** X7: the header dictionary has no entry besides ["Content-Type"] and,
    for a key that is not [None], ["Authorization"]; the empty string is a
    key like any other. *)
Theorem headers_have_no_other_entries key name :
  is_Some (build_headers key !! name) <->
  name = "Content-Type" \/ (name = "Authorization" /\ is_Some key).
Proof.
  destruct key as [k|]; cbn.
  - destruct (decide (name = "Authorization")) as [->|Hauth].
    + rewrite lookup_insert_eq. split; [eauto|]. intros _. eauto.
    + rewrite lookup_insert_ne by done.
      destruct (decide (name = "Content-Type")) as [->|Hct].
      * rewrite lookup_singleton_eq. split; eauto.
      * rewrite lookup_singleton_ne by done. split.
        -- intros [x Hx]. discriminate.
        -- intros [?|[? _]]; contradiction.
  - destruct (decide (name = "Content-Type")) as [->|Hct].
    + rewrite lookup_singleton_eq. split; eauto.
    + rewrite lookup_singleton_ne by done. split.
      * intros [x Hx]. discriminate.
      * intros [?|[_ [x Hx]]]; [contradiction|discriminate].
Qed.

(** X8: every invocation opens the image file once, and that is the
    first thing it does: all later events are requests. *)
Theorem file_opened_once_and_first image url key parameters :
  exists rest,
    trace (score' image url key parameters) = OpenRead image :: rest /\
    posts rest = rest.
Proof.
  rewrite score_trace. eexists. split; [reflexivity|].
  destruct (fs !! image); [|reflexivity].
  destruct (json_dumps _); reflexivity.
Qed.

End ScoringExtras.

(** ** The size of the encoded image *)

Section Base64Size.
Import Py Base64.

Lemma decode_ascii_length bs : String.length (decode_ascii bs) = length bs.
Proof.
  unfold decode_ascii. induction bs as [|b bs IH]; cbn; [done|].
  by rewrite IH.
Qed.

Lemma b64encode_length data :
  length (b64encode data) = 4 * ((length data + 2) / 3).
Proof.
  induction data as [|a|a b|a b c rest IH] using list_ind_by3;
    try reflexivity.
  rewrite b64encode_step. cbn [length]. rewrite IH.
  replace (S (S (S (length rest))) + 2) with (length rest + 2 + 1 * 3) by lia.
  rewrite Nat.div_add by lia. lia.
Qed.

(** X9: for an image of [n] bytes the ["image_in_base64"] text has
    [4 * ceil(n / 3) + 3] characters: four for every started group of
    three bytes, and three for the [b'] and ['] around them. *)
Theorem image_in_base64_length image_buffer :
  String.length (format0_bytes (b64encode image_buffer)) =
  4 * ((length image_buffer + 2) / 3) + 3.
Proof.
  unfold format0_bytes.
  rewrite (bytes_repr_plain_bytes _ (b64encode_plain image_buffer)).
  rewrite !string_length_app, decode_ascii_length, b64encode_length.
  cbn. lia.
Qed.

End Base64Size.

(** ** More on the deployment cell *)

Section DeploymentExtras.
Import Py Notebook.

Variable cloud : Type.
Variable is_existing_service : string -> cloud -> bool.
Variable delete_if_service_exist : string -> cloud -> result cloud.
Variable deploy : string -> cloud -> result cloud.

Abbreviation cell' :=
  (deployment_cell cloud is_existing_service delete_if_service_exist deploy).

(** The two shapes of a run. *)
Lemma deployment_cell_cases name c :
  cell' name c =
  if is_existing_service name c then
    match delete_if_service_exist name c with
    | Ok c1 => ([ (IsExistingService name, c);
                  (DeleteIfServiceExist name, c);
                  (Deploy name, c1) ], deploy name c1)
    | Raised e => ([ (IsExistingService name, c);
                     (DeleteIfServiceExist name, c) ], Raised e)
    end
  else ([ (IsExistingService name, c); (Deploy name, c) ], deploy name c).
Proof.
  unfold deployment_cell.
  destruct (is_existing_service name c); [|reflexivity].
  by destruct (delete_if_service_exist name c).
Qed.

(** X10: the cell calls [delete_if_service_exist] exactly when the check
    finds a service, and then for the deployment name and in the state the
    check saw; with no such service nothing is deleted. *)
Theorem delete_called_iff_service_exists name c n c0 :
  (DeleteIfServiceExist n, c0) ∈ (cell' name c).1 <->
  n = name /\ c0 = c /\ is_existing_service name c = true.
Proof.
  rewrite deployment_cell_cases.
  destruct (is_existing_service name c) eqn:Hex.
  - destruct (delete_if_service_exist name c); cbn;
      rewrite !elem_of_cons, elem_of_nil; split.
    + intros [H|[H|[H|[]]]]; try discriminate. by injection H as -> ->.
    + intros (-> & -> & _). auto.
    + intros [H|[H|[]]]; try discriminate. by injection H as -> ->.
    + intros (-> & -> & _). auto.
  - cbn. rewrite !elem_of_cons, elem_of_nil. split.
    + intros [H|[H|[]]]; discriminate.
    + intros (_ & _ & H). discriminate.
Qed.

(** X11: when the deletion raises, the cell ends with that exception and
    [deploy] is not called. *)
Theorem failed_deletion_aborts_deployment name c e :
  is_existing_service name c = true ->
  delete_if_service_exist name c = Raised e ->
  (cell' name c).2 = Raised e /\
  forall n c1, (Deploy n, c1) ∉ (cell' name c).1.
Proof.
  intros Hex Hdel. rewrite deployment_cell_cases, Hex, Hdel. cbn.
  split; [reflexivity|]. intros n c1.
  rewrite !elem_of_cons, elem_of_nil. intros [H|[H|[]]]; discriminate.
Qed.

(** X12: running the cell again after a run that deployed.  Deployment
    making the service exist, the second run finds it and calls
    [delete_if_service_exist] on what the first run created before it
    deploys again. *)
Theorem rerun_deletes_what_was_deployed name c c1 :
  (forall c0 c0', deploy name c0 = Ok c0' ->
                  is_existing_service name c0' = true) ->
  (cell' name c).2 = Ok c1 ->
  exists rest,
    (cell' name c1).1 =
      (IsExistingService name, c1) :: (DeleteIfServiceExist name, c1) :: rest /\
    (cell' name c1).2 =
      (c2 ← delete_if_service_exist name c1; deploy name c2).
Proof.
  intros Hdeploy Hrun.
  assert (Hex : is_existing_service name c1 = true).
  { rewrite deployment_cell_cases in Hrun.
    destruct (is_existing_service name c).
    - destruct (delete_if_service_exist name c); [|discriminate].
      cbn in Hrun. eauto.
    - cbn in Hrun. eauto. }
  rewrite deployment_cell_cases, Hex.
  destruct (delete_if_service_exist name c1); cbn; eauto.
Qed.

End DeploymentExtras.

(** ** The classifier name in the selection and the plotting cell *)

Section PlottingFacts.
Import Py Notebook Workflow.

Variable train : pyval -> pyval -> pyval -> pyval -> pyval -> result unit.
Variable train_eval_accs : pyval -> result (list pyval).
Variable plt_plot : pyval -> pyval -> string -> string -> result pyval.

Abbreviation plots := (plot_cell train_eval_accs plt_plot).

(** A normal end of the selection cell: the name is dnn up to case, and
    the globals gain [classifier_name] and [classifier], the latter the
    object [dnn_model] is bound to. *)
Lemma classifier_cell_ok_inv classifier_name globals globals' :
  classifier_cell train classifier_name globals = Ok globals' ->
  str_lower classifier_name = "dnn" /\
  exists model,
    globals !! "dnn_model" = Some model /\
    globals' =
      <[ "classifier" := model ]>
        (<[ "classifier_name" := PStr classifier_name ]> globals).
Proof.
  unfold classifier_cell.
  destruct (String.eqb_spec (str_lower classifier_name) "dnn") as [Hdnn|_].
  - unfold lookup_name. rewrite !lookup_insert_ne by discriminate.
    destruct (globals !! "dnn_model") as [model|]; [|discriminate].
    destruct (globals !! "train_set"); [|discriminate].
    destruct (globals !! "lr_per_mb"); [|discriminate].
    destruct (globals !! "mb_size"); [|discriminate].
    destruct (globals !! "test_set"); [|discriminate].
    cbn. destruct (train _ _ _ _ _); [|discriminate].
    cbn. intros [= <-]. eauto.
  - unfold lookup_name.
    destruct (_ !! "classifier") as [v|]; [|discriminate].
    cbn. destruct (str_add _ v); discriminate.
Qed.

Lemma selected_classifier_name (globals : gmap string pyval) model name :
  <[ "classifier" := model ]>
    (<[ "classifier_name" := PStr name ]> globals) !! "classifier_name" =
  Some (PStr name).
Proof. rewrite lookup_insert_ne by discriminate. apply lookup_insert_eq. Qed.

Lemma selected_classifier (globals : gmap string pyval) model name :
  <[ "classifier" := model ]>
    (<[ "classifier_name" := PStr name ]> globals) !! "classifier" =
  Some model.
Proof. apply lookup_insert_eq. Qed.

(** X13: the selection cell never ends normally for a name that is not
    dnn up to case; when it does end normally, [classifier] is the very
    object [dnn_model] names and, besides [classifier_name], no other
    global name changes. *)
Theorem selection_binds_classifier_to_dnn_model
    classifier_name globals globals' :
  classifier_cell train classifier_name globals = Ok globals' ->
  str_lower classifier_name = "dnn" /\
  globals' !! "classifier" = globals !! "dnn_model" /\
  is_Some (globals' !! "classifier") /\
  globals' !! "classifier_name" = Some (PStr classifier_name) /\
  forall name, name <> "classifier" -> name <> "classifier_name" ->
               globals' !! name = globals !! name.
Proof.
  intros (Hdnn & model & Hmodel & ->)%classifier_cell_ok_inv.
  split; [exact Hdnn|]. rewrite selected_classifier, Hmodel.
  split; [reflexivity|]. split; [eauto|].
  rewrite selected_classifier_name.
  split; [reflexivity|]. intros name H1 H2.
  by rewrite !lookup_insert_ne.
Qed.


(** X15: when [train_eval_accs] does not have exactly three items the
    plotting cell raises [ValueError] from the unpacking, before anything
    is plotted. *)
Theorem plot_cell_wrong_item_count globals classifier items :
  globals !! "classifier_name" = Some (PStr "dnn") ->
  globals !! "classifier" = Some classifier ->
  train_eval_accs classifier = Ok items ->
  length items <> 3 ->
  entries (plots globals) = [] /\
  exists msg, final (plots globals) = Raised (ValueError msg).
Proof.
  intros Hname Hcls Hitems Hlen.
  unfold plot_cell, lookup_name. rewrite Hname, Hcls. cbn.
  rewrite Hitems. cbn.
  destruct items as [|a [|b [|c [|d items]]]]; cbn; eauto.
  contradiction Hlen. reflexivity.
Qed.

(** X16: after a selection with the name dnn the plotting cell draws the
    history of the object [dnn_model] names: both curves over the same
    epoch numbers, training first, between the axis labels and the
    legend. *)
Theorem plot_cell_draws_history_of_dnn_model
    globals globals' model train_accs test_accs epoch_numbers l1 l2 :
  classifier_cell train "dnn" globals = Ok globals' ->
  globals !! "dnn_model" = Some model ->
  train_eval_accs model = Ok [train_accs; test_accs; epoch_numbers] ->
  plt_plot epoch_numbers train_accs "r-" "Training accuracy" = Ok l1 ->
  plt_plot epoch_numbers test_accs "b-." "Test accuracy" = Ok l2 ->
  entries (plots globals') =
    [ Xlabel "Number of training epochs";
      Ylabel "Classification accuracy";
      Plot epoch_numbers train_accs "r-" "Training accuracy";
      Plot epoch_numbers test_accs "b-." "Test accuracy";
      Legend ] /\
  is_ok (final (plots globals')) = true.
Proof.
  intros (_ & model' & Hmodel' & ->)%classifier_cell_ok_inv Hmodel
    Hitems Hplot1 Hplot2.
  rewrite Hmodel in Hmodel'. injection Hmodel' as <-.
  unfold plot_cell, lookup_name.
  rewrite selected_classifier_name, selected_classifier.
  cbn. rewrite Hitems. cbn.
  unfold plot. cbn. rewrite Hplot1. cbn. rewrite Hplot2. cbn.
  split; reflexivity.
Qed.

End PlottingFacts.

(** ** The dataset description, the prediction labels and the
    precision/recall viewer *)

Section DatasetFacts.
Import Py Notebook Workflow.

(** X17: on a dataset with fewer than three images the describing cell
    prints its first line, with the counts, and then raises [IndexError]
    at [dataset.images[2]]. *)
Theorem describe_dataset_needs_three_images d :
  length (dataset_images d) < 3 ->
  describe_dataset d =
  ([ "Dataset consists of " +:+ pretty (length (dataset_images d))
     +:+ " images with " +:+ pretty (length (dataset_labels d))
     +:+ " labels." ],
   Raised IndexError).
Proof.
  intros Hlen. unfold describe_dataset, list_getitem.
  rewrite (lookup_ge_None_2 (dataset_images d) 2) by lia.
  reflexivity.
Qed.

(** X18: the describing cell ends normally exactly when the dataset has
    an image 2 and that image has at least one label; otherwise it raises
    [IndexError]. *)
Theorem describe_dataset_succeeds_iff d :
  (final (describe_dataset d) = Ok tt <->
   exists img, dataset_images d !! 2 = Some img /\ image_labels img <> []) /\
  (final (describe_dataset d) = Ok tt \/
   final (describe_dataset d) = Raised IndexError).
Proof.
  unfold describe_dataset, list_getitem.
  destruct (dataset_images d !! 2) as [img|]; cbn.
  - destruct (image_labels img) as [|lbl lbls] eqn:Hlbls; cbn.
    + split; [|by right]. split; [discriminate|].
      intros (img' & [= <-] & Hne). by rewrite Hlbls in Hne.
    + split; [|by left]. split; [|reflexivity].
      intros _. exists img. by rewrite Hlbls.
  - split; [|by right]. split; [discriminate|].
    intros (img & Himg & _). discriminate.
Qed.

Lemma select_labels_ok_iff labels indices :
  is_ok (select_labels labels indices) = true <->
  Forall (fun i => i < length labels) indices.
Proof.
  induction indices as [|i rest IH]; cbn.
  - split; [constructor|reflexivity].
  - unfold list_getitem.
    destruct (labels !! i) as [l|] eqn:Hi; cbn.
    + apply lookup_lt_Some in Hi.
      destruct (select_labels labels rest); cbn in *.
      * split; [|reflexivity]. intros _. constructor; [exact Hi|].
        by apply IH.
      * split; [discriminate|]. intros Hall. apply IH.
        by inversion Hall.
    + apply lookup_ge_None in Hi. split; [discriminate|].
      intros Hall. inversion Hall; subst. lia.
Qed.

Lemma select_labels_lookup labels indices ls :
  select_labels labels indices = Ok ls ->
  length ls = length indices /\
  forall k i, indices !! k = Some i -> ls !! k = labels !! i.
Proof.
  revert ls. induction indices as [|i rest IH]; cbn; intros ls.
  - intros [= <-]. split; [reflexivity|]. intros k i Hk. discriminate.
  - unfold list_getitem.
    destruct (labels !! i) as [l|] eqn:Hi; cbn; [|discriminate].
    destruct (select_labels labels rest) as [ls'|]; cbn; [|discriminate].
    intros [= <-]. destruct (IH ls' eq_refl) as [Hlen Hlook].
    split; [cbn; by rewrite Hlen|].
    intros [|k] j; cbn.
    + intros [= <-]. by rewrite Hi.
    + apply Hlook.
Qed.

(** X19: labelling the predictions raises no [IndexError] exactly when
    every index that [argmax] returned is below the number of labels of
    the dataset. *)
Theorem pred_labels_ok_iff d indices :
  is_ok (pred_labels d indices) = true <->
  Forall (fun i => i < length (dataset_labels d)) indices.
Proof.
  unfold pred_labels. rewrite select_labels_ok_iff.
  by rewrite length_map.
Qed.

(** X20: when the labelling succeeds there is one predicted label per
    index, in order, and the label at position [k] is the name of the
    dataset label whose position is the [k]-th index. *)
Theorem pred_labels_lookup d indices ls :
  pred_labels d indices = Ok ls ->
  length ls = length indices /\
  forall k i, indices !! k = Some i ->
              ls !! k = label_name <$> dataset_labels d !! i.
Proof.
  unfold pred_labels. intros [Hlen Hlook]%select_labels_lookup.
  split; [exact Hlen|]. intros k i Hk.
  rewrite (Hlook k i Hk). apply list_lookup_fmap.
Qed.

End DatasetFacts.

Section PrecisionRecallFacts.
Import Py Notebook Workflow.

Variable num : Type.
Variable times100 : num -> num.

(** X21: the viewer cell needs at least one threshold: with none,
    [thresholds[-1]] raises [IndexError]; with one or more it succeeds,
    whatever the precisions and recalls are. *)
Theorem pr_ui_needs_a_threshold precisions recalls thresholds :
  pr_ui_arguments num times100 precisions recalls [] = Raised IndexError /\
  (is_ok (pr_ui_arguments num times100 precisions recalls thresholds) = true <->
   thresholds <> []).
Proof.
  unfold pr_ui_arguments, last_item. split.
  - reflexivity.
  - destruct (last thresholds) as [t|] eqn:Hlast; cbn.
    + split; [|reflexivity]. intros _ ->. discriminate.
    + apply last_None in Hlast as ->. split; [discriminate|]. by intros [].
Qed.

(** X22: the thresholds the viewer gets are the given ones reversed,
    with the last given threshold twice at the front; precisions and
    recalls are reversed and scaled, entry by entry. *)
Theorem pr_ui_thresholds_repeat_last precisions recalls ts t :
  pr_ui_arguments num times100 precisions recalls (ts ++ [t]) =
  Ok (map times100 (reverse precisions),
      map times100 (reverse recalls),
      t :: t :: reverse ts).
Proof.
  unfold pr_ui_arguments, last_item. rewrite last_snoc. cbn.
  by rewrite !reverse_snoc.
Qed.

(** X23: when precisions and recalls have one entry more than the
    thresholds, the three sequences the viewer gets have the same
    length. *)
Theorem pr_ui_arguments_aligned precisions recalls thresholds ps rs ts :
  length precisions = S (length thresholds) ->
  length recalls = S (length thresholds) ->
  pr_ui_arguments num times100 precisions recalls thresholds =
    Ok (ps, rs, ts) ->
  length ps = length ts /\ length rs = length ts /\
  length ts = S (length thresholds).
Proof.
  intros Hp Hr. unfold pr_ui_arguments, last_item.
  destruct (last thresholds) as [t|]; cbn; [|discriminate].
  intros [= <- <- <-].
  rewrite !length_map, !length_reverse, length_app. cbn. lia.
Qed.

End PrecisionRecallFacts.

(** ** The timing cell *)

Section TimingFacts.
Import Py Notebook Workflow.

Variable score_image : string -> list Z -> result pyval.

Abbreviation loop := (timing_loop score_image).
Abbreviation timing := (timing_cell score_image).

Lemma timing_loop_cons num_images k img rest :
  loop num_images k (img :: rest) =
  match score_image (image_storage_path img) [224; 224]%Z with
  | Ok return_json =>
      (PrintCalling (calling_message k num_images (image_name img)) ::
       ScoreImage (image_storage_path img) [224; 224]%Z ::
       PrintElapsed :: PrintResult return_json ::
       entries (loop num_images (S k) rest),
       final (loop num_images (S k) rest))
  | Raised e =>
      ([ PrintCalling (calling_message k num_images (image_name img));
         ScoreImage (image_storage_path img) [224; 224]%Z ],
       Raised e)
  end.
Proof.
  cbn [timing_loop]. unfold call_score_image, say, lift.
  unfold mbind, logged_bind. cbn.
  destruct (score_image _ _); cbn; [|reflexivity].
  by destruct (timing_loop _ _ _ _).
Qed.

Lemma timing_loop_scored_le num_images k images :
  length (scored_paths (entries (loop num_images k images))) <=
  length images.
Proof.
  revert k. induction images as [|img rest IH]; intros k; [cbn; lia|].
  rewrite timing_loop_cons. specialize (IH (S k)).
  unfold scored_paths in *. destruct (score_image _ _); cbn; lia.
Qed.

Lemma timing_loop_all_ok num_images k images :
  Forall (fun img =>
            is_ok (score_image (image_storage_path img) [224; 224]%Z) = true)
         images ->
  final (loop num_images k images) = Ok tt /\
  scored_paths (entries (loop num_images k images)) =
  map image_storage_path images.
Proof.
  revert k. induction images as [|img rest IH]; intros k Hall; [done|].
  rewrite timing_loop_cons. inversion Hall as [|? ? Himg Hrest]; subst.
  destruct (score_image _ _); [|discriminate].
  destruct (IH (S k) Hrest) as [Hfinal Hpaths].
  split; [exact Hfinal|]. unfold scored_paths in *. cbn. by rewrite Hpaths.
Qed.

Lemma timing_loop_first_failure num_images k pre img post e :
  Forall (fun img =>
            is_ok (score_image (image_storage_path img) [224; 224]%Z) = true)
         pre ->
  score_image (image_storage_path img) [224; 224]%Z = Raised e ->
  final (loop num_images k (pre ++ img :: post)) = Raised e /\
  scored_paths (entries (loop num_images k (pre ++ img :: post))) =
  map image_storage_path (pre ++ [img]).
Proof.
  revert k. induction pre as [|p pre IH]; intros k Hall Himg.
  - cbn [app]. rewrite timing_loop_cons, Himg. done.
  - cbn [app]. rewrite timing_loop_cons.
    inversion Hall as [|? ? Hp Hpre]; subst.
    destruct (score_image (image_storage_path p) _); [|discriminate].
    destruct (IH (S k) Hpre Himg) as [Hfinal Hpaths].
    split; [exact Hfinal|]. unfold scored_paths in *. cbn. by rewrite Hpaths.
Qed.

(** X24: the timing cell never scores more than ten images, however
    many the test set has and whatever the service answers. *)
Theorem timing_cell_scores_at_most_ten test_images :
  length (scored_paths (entries (timing test_images))) <= 10 /\
  length (scored_paths (entries (timing test_images))) <= length test_images.
Proof.
  unfold timing_cell.
  pose proof (timing_loop_scored_le 10 0 (take 10 test_images)) as Hle.
  rewrite length_take in Hle. lia.
Qed.

(** X25: when every call succeeds, the cell scores the first ten test
    images (all of them when there are fewer), each once, in the order of
    the test set, by their storage paths. *)
Theorem timing_cell_scores_first_ten_in_order test_images :
  Forall (fun img =>
            is_ok (score_image (image_storage_path img) [224; 224]%Z) = true)
         (take 10 test_images) ->
  final (timing test_images) = Ok tt /\
  scored_paths (entries (timing test_images)) =
  map image_storage_path (take 10 test_images).
Proof. intros Hall. unfold timing_cell. by apply timing_loop_all_ok. Qed.

(** X26: the loop has no handler: the first call that raises ends the
    cell with that exception, and the images after it are not scored. *)
Theorem timing_cell_stops_at_first_failure test_images pre img post e :
  take 10 test_images = pre ++ img :: post ->
  Forall (fun img =>
            is_ok (score_image (image_storage_path img) [224; 224]%Z) = true)
         pre ->
  score_image (image_storage_path img) [224; 224]%Z = Raised e ->
  final (timing test_images) = Raised e /\
  scored_paths (entries (timing test_images)) =
  map image_storage_path (pre ++ [img]).
Proof.
  intros Htake Hpre Himg. unfold timing_cell. rewrite Htake.
  by apply timing_loop_first_failure.
Qed.

End TimingFacts.

(** ** The further properties on concrete data *)

Section ExtraWitnesses.
Import Py Notebook Workflow.


Lemma unserialisable_payload_sends_nothing_witness :
  Sample.score "cup.jpg" Sample.score_url None
    (PDict [("model", PObj "CNTKTLModel")]) =
  ([OpenRead "cup.jpg"], Raised TypeError).
Proof.
  apply (unserialisable_payload_sends_nothing
           Sample.files Json.dumps Json.loads Sample.service
           "cup.jpg" Sample.score_url None
           (PDict [("model", PObj "CNTKTLModel")]) Sample.cup_jpg).
  - vm_compute. reflexivity.
  - vm_compute. reflexivity.
Defined.

Lemma transport_error_propagates_witness :
  score_image_with_http Sample.files Json.dumps Json.loads
    WorkflowSample.down_service "cup.jpg" Sample.score_url None (PDict []) =
  ([OpenRead "cup.jpg";
    HttpPost Sample.score_url Sample.cup_body (build_headers None)],
   Raised (LibraryError "ConnectionError")).
Proof.
  apply (transport_error_propagates
           Sample.files Json.dumps Json.loads WorkflowSample.down_service
           "cup.jpg" Sample.score_url None (PDict []) Sample.cup_jpg).
  - vm_compute. reflexivity.
  - vm_compute. reflexivity.
  - reflexivity.
Defined.

Lemma returned_value_is_json_string_witness :
  exists content body text decoded s,
    Sample.files !! "cup.jpg" = Some content /\
    Json.dumps (PList (build_payload content (PDict []))) = Ok body /\
    Sample.service Sample.score_url body (build_headers None) = Ok text /\
    Json.loads text = Ok decoded /\
    getitem0 decoded = Ok (PStr s) /\
    is_ok (Json.loads s) = true /\
    PStr Sample.scores = PStr s.
Proof.
  apply (returned_value_is_json_string
           Sample.files Json.dumps Json.loads Sample.service
           "cup.jpg" Sample.score_url None (PDict []) (PStr Sample.scores)).
  vm_compute. reflexivity.
Defined.

Lemma bare_string_response_returns_first_character_witness :
  outcome (score_image_with_http Sample.files Json.dumps Json.loads
             WorkflowSample.string_service
             "cup.jpg" Sample.score_url None (PDict [])) =
  Ok (PStr "7").
Proof.
  apply (bare_string_response_returns_first_character
           Sample.files Json.dumps Json.loads WorkflowSample.string_service
           "cup.jpg" Sample.score_url None (PDict [])
           Sample.cup_jpg Sample.cup_body WorkflowSample.string_response
           "7"%char " cups").
  - vm_compute. reflexivity.
  - vm_compute. reflexivity.
  - reflexivity.
  - vm_compute. reflexivity.
  - vm_compute. reflexivity.
Defined.


Lemma failed_deletion_aborts_deployment_witness :
  (deployment_cell (gset string) Sample.is_existing_service
     WorkflowSample.delete_denied Sample.deploy
     "icdeployment" {[ "icdeployment" ]}).2 =
    Raised (LibraryError "az ml service delete") /\
  forall n c1,
    (Deploy n, c1) ∉
    (deployment_cell (gset string) Sample.is_existing_service
       WorkflowSample.delete_denied Sample.deploy
       "icdeployment" {[ "icdeployment" ]}).1.
Proof.
  apply (failed_deletion_aborts_deployment (gset string)
           Sample.is_existing_service WorkflowSample.delete_denied
           Sample.deploy "icdeployment" {[ "icdeployment" ]}).
  - vm_compute. reflexivity.
  - reflexivity.
Defined.

(** In the sample account deployment creates the name. *)
Lemma sample_deploy_creates name (c0 c1 : gset string) :
  Sample.deploy name c0 = Ok c1 ->
  Sample.is_existing_service name c1 = true.
Proof.
  unfold Sample.deploy, Sample.is_existing_service.
  intros Heq. injection Heq as <-. apply bool_decide_eq_true.
  apply elem_of_union_l. by apply elem_of_singleton.
Qed.

Lemma rerun_deletes_what_was_deployed_witness :
  let name := "icdeployment" in
  let c1 : gset string := {[ name ]} ∪ ∅ in
  exists rest,
    (Sample.run_deployment name c1).1 =
      (IsExistingService name, c1) :: (DeleteIfServiceExist name, c1) :: rest /\
    (Sample.run_deployment name c1).2 =
      (c2 ← Sample.delete_if_service_exist name c1; Sample.deploy name c2).
Proof.
  intros name c1.
  apply (rerun_deletes_what_was_deployed (gset string)
           Sample.is_existing_service Sample.delete_if_service_exist
           Sample.deploy name ∅ c1).
  - intros c0 c0'. apply sample_deploy_creates.
  - reflexivity.
Defined.

Lemma selection_binds_classifier_to_dnn_model_witness :
  str_lower "DNN" = "dnn" /\
  WorkflowSample.globals_after_DNN !! "classifier" =
    Sample.globals_before_selection !! "dnn_model" /\
  is_Some (WorkflowSample.globals_after_DNN !! "classifier") /\
  WorkflowSample.globals_after_DNN !! "classifier_name" = Some (PStr "DNN") /\
  forall name, name <> "classifier" -> name <> "classifier_name" ->
               WorkflowSample.globals_after_DNN !! name =
               Sample.globals_before_selection !! name.
Proof.
  apply (selection_binds_classifier_to_dnn_model Sample.train "DNN").
  vm_compute. reflexivity.
Defined.


Lemma plot_cell_wrong_item_count_witness :
  entries (plot_cell WorkflowSample.history WorkflowSample.line2d
             WorkflowSample.globals_short_history) = [] /\
  exists msg,
    final (plot_cell WorkflowSample.history WorkflowSample.line2d
             WorkflowSample.globals_short_history) =
    Raised (ValueError msg).
Proof.
  apply (plot_cell_wrong_item_count
           WorkflowSample.history WorkflowSample.line2d
           WorkflowSample.globals_short_history
           (PObj "ScikitClassifier") [PList []; PList []]).
  - vm_compute. reflexivity.
  - vm_compute. reflexivity.
  - reflexivity.
  - cbn. lia.
Defined.

Lemma plot_cell_draws_history_of_dnn_model_witness :
  entries (plot_cell WorkflowSample.history WorkflowSample.line2d
             WorkflowSample.globals_after_dnn) =
    [ Xlabel "Number of training epochs";
      Ylabel "Classification accuracy";
      Plot (PList [PInt 1; PInt 2]) (PList [PInt 60; PInt 90])
        "r-" "Training accuracy";
      Plot (PList [PInt 1; PInt 2]) (PList [PInt 55; PInt 80])
        "b-." "Test accuracy";
      Legend ] /\
  is_ok (final (plot_cell WorkflowSample.history WorkflowSample.line2d
                  WorkflowSample.globals_after_dnn)) = true.
Proof.
  apply (plot_cell_draws_history_of_dnn_model Sample.train
           WorkflowSample.history WorkflowSample.line2d
           Sample.globals_before_selection WorkflowSample.globals_after_dnn
           (PObj "CNTKTLModel") _ _ _
           (PList [PObj "Line2D"]) (PList [PObj "Line2D"])).
  - vm_compute. reflexivity.
  - vm_compute. reflexivity.
  - reflexivity.
  - reflexivity.
  - reflexivity.
Defined.

Lemma describe_dataset_needs_three_images_witness :
  describe_dataset WorkflowSample.tiny =
  ([ "Dataset consists of 2 images with 2 labels." ], Raised IndexError).
Proof.
  apply (describe_dataset_needs_three_images WorkflowSample.tiny).
  cbn. lia.
Defined.

Lemma pred_labels_lookup_witness :
  length ["cutlery"; "bowl"; "plate"] = length [2; 0; 3] /\
  forall k i, [2; 0; 3] !! k = Some i ->
              ["cutlery"; "bowl"; "plate"] !! k =
              label_name <$> dataset_labels WorkflowSample.recycling !! i.
Proof.
  apply (pred_labels_lookup WorkflowSample.recycling [2; 0; 3]).
  reflexivity.
Defined.

Lemma pr_ui_arguments_aligned_witness :
  length [200; 100; 100]%Z = length [9; 9; 4]%Z /\
  length [0; 100; 200]%Z = length [9; 9; 4]%Z /\
  length [9; 9; 4]%Z = S (length [4; 9]%Z).
Proof.
  apply (pr_ui_arguments_aligned Z (Z.mul 100)
           [1; 1; 2]%Z [2; 1; 0]%Z [4; 9]%Z
           [200; 100; 100]%Z [0; 100; 200]%Z [9; 9; 4]%Z).
  - reflexivity.
  - reflexivity.
  - reflexivity.
Defined.

Lemma timing_cell_scores_first_ten_in_order_witness :
  final (timing_cell WorkflowSample.score_image_ok WorkflowSample.twelve) =
    Ok tt /\
  scored_paths
    (entries (timing_cell WorkflowSample.score_image_ok WorkflowSample.twelve)) =
  map image_storage_path (take 10 WorkflowSample.twelve).
Proof.
  apply (timing_cell_scores_first_ten_in_order
           WorkflowSample.score_image_ok WorkflowSample.twelve).
  apply Forall_forall. intros img _. reflexivity.
Defined.

Lemma timing_cell_stops_at_first_failure_witness :
  final (timing_cell WorkflowSample.score_image_flaky WorkflowSample.twelve) =
    Raised (LibraryError "ConnectionError") /\
  scored_paths
    (entries (timing_cell WorkflowSample.score_image_flaky
                WorkflowSample.twelve)) =
  map image_storage_path
    (take 3 WorkflowSample.twelve ++ [WorkflowSample.img "cup" "c3.jpg"]).
Proof.
  apply (timing_cell_stops_at_first_failure
           WorkflowSample.score_image_flaky WorkflowSample.twelve
           (take 3 WorkflowSample.twelve) (WorkflowSample.img "cup" "c3.jpg")
           (drop 4 (take 10 WorkflowSample.twelve))).
  - vm_compute. reflexivity.
  - vm_compute. repeat constructor.
  - vm_compute. reflexivity.
Defined.

End ExtraWitnesses.
